(** * edu-pilot-frontend: the generic REST client [ApiService]

    A shallow embedding of [src/services/consts.ts],
    [src/services/interfaces.ts] and [src/services/api.service.ts],
    followed by the properties of the client that the specification
    states, each settled on the embedding.

    Conventions of the embedding:
    - an optional field or argument ([address?: string]) is an [option],
      [None] standing for [undefined];
    - JavaScript truthiness is the class [Truthy]; [a || b] is [js_or];
    - a promise that has settled is a [Promise]: [Resolved v] or
      [Rejected e]; [await] is the bind of that monad;
    - [localStorage] and header bags are finite maps from strings to
      strings;
    - the HTTP transport (axios) is outside the repository: the part of it
      that the client drives (defaults merged into a request, the chain of
      request interceptors, the adapter that performs the exchange) is
      modelled in [Module Axios], the adapter being a section variable. *)

From stdpp Require Import base strings gmap.
From Stdlib Require Import ZArith.

#[local] Set Warnings "-register-all".
Local Open Scope Z_scope.
Local Open Scope string_scope.

(** ** JavaScript values *)

(** A JavaScript [number] as far as the client meets one: an integer
    (status codes, millisecond counts, JSON integers) or [NaN]. *)
Inductive number : Type :=
  | Num (z : Z)
  | NaN.

(** The values a parsed response body or a request payload can be. *)
Inductive JsValue : Type :=
  | JUndefined
  | JNull
  | JBool (b : bool)
  | JNum (n : number)
  | JStr (s : string)
  | JArr (items : list JsValue)
  | JObj (fields : list (string * JsValue)).

(** The object literal [{}]. *)
Definition empty_object : JsValue := JObj [].

(** ToBoolean, per type. *)
Class Truthy (A : Type) := truthy : A → bool.
Global Hint Mode Truthy ! : typeclass_instances.

Global Instance string_truthy : Truthy string := λ s,
  match s with
  | EmptyString => false
  | String _ _ => true
  end.

Global Instance number_truthy : Truthy number := λ n,
  match n with
  | Num z => negb (Z.eqb z 0)
  | NaN => false
  end.

Global Instance JsValue_truthy : Truthy JsValue := λ v,
  match v with
  | JUndefined | JNull => false
  | JBool b => b
  | JNum n => truthy n
  | JStr s => truthy s
  | JArr _ | JObj _ => true
  end.

(** [undefined] and [null] are falsy. *)
Global Instance option_truthy {A} `{Truthy A} : Truthy (option A) := λ o,
  match o with
  | Some a => truthy a
  | None => false
  end.

(** [a || b] where [a] may be absent: the left operand when it is truthy,
    the right one otherwise. *)
Definition js_or {A} `{Truthy A} (a : option A) (b : A) : A :=
  match a with
  | Some x => if truthy x then x else b
  | None => b
  end.

(** What a template literal interpolates for a plain object: the result of
    [Object.prototype.toString], whatever the object holds. *)
Definition Object_toString {A} (o : A) : string := "[object Object]".

(** A body that carries nothing: the empty text of a response without
    content, or no value at all. *)
Definition empty_body (v : JsValue) : bool :=
  match v with
  | JUndefined | JNull => true
  | JStr EmptyString => true
  | _ => false
  end.

(** ** Settled promises *)

Inductive Promise (A : Type) : Type :=
  | Resolved (a : A)
  | Rejected (reason : JsValue).
Arguments Resolved {A} a.
Arguments Rejected {A} reason.

(** [p.then(onFulfilled, onRejected)]. *)
Definition then_ {A B} (p : Promise A)
    (onFulfilled : A → Promise B) (onRejected : JsValue → Promise B) : Promise B :=
  match p with
  | Resolved a => onFulfilled a
  | Rejected e => onRejected e
  end.

Global Instance Promise_ret : MRet Promise := λ A a, Resolved a.
(** [await p] followed by the rest of an async function: a rejection of [p]
    is thrown, and so rejects the function's own promise. *)
Global Instance Promise_bind : MBind Promise := λ A B k p, then_ p k Rejected.

(** ** consts.ts *)

Inductive MethodType : Type := GET | POST | PUT | PATCH | DELETE.

(** The run-time value of each member of the string enum. *)
Definition MethodType_value (m : MethodType) : string :=
  match m with
  | GET => "GET"
  | POST => "POST"
  | PUT => "PUT"
  | PATCH => "PARCH"
  | DELETE => "DELETE"
  end.

Definition BASE_URL : string := "http://localhost:8000".
Definition BASE_PROTOCOL : string := "https".
Definition BASE_TIMEOUT : number := Num 15000.
Definition TOKEN_KEY_NAME : string := "edu_pilot_sid".

(** ** interfaces.ts *)

Record IEndpoint : Type := {
  address : option string;
  entity : string;
  protocol : option string;
  timeout : option number
}.

Record IRequestConfig : Type := {
  path : option string;
  method : MethodType;
  params : option JsValue
}.

(** ** The browser's persisted storage *)

Abbreviation Storage := (gmap string string).

(** [localStorage.getItem(key)]: the stored string, or [null]. *)
Definition getItem (localStorage : Storage) (key : string) : option string :=
  localStorage !! key.

(** ** The transport *)

Record AxiosResponse : Type := {
  status : Z;
  data : JsValue
}.

Module Axios.

(** The request configuration of the transport: what a caller may set
    and what the adapter finally sends. *)
Record RequestConfig : Type := {
  url : option string;
  method : option string;
  baseURL : option string;
  timeout : option number;
  headers : gmap string string;
  params : option JsValue;
  data : option JsValue
}.

(** One registered request interceptor, [use(fulfilled, rejected)]. The
    fulfilled handler runs in the browser and may read its storage. *)
Record Interceptor : Type := {
  fulfilled : Storage → RequestConfig → Promise RequestConfig;
  rejected : JsValue → Promise RequestConfig
}.

Record Instance : Type := {
  defaults : RequestConfig;
  request_interceptors : list Interceptor
}.

(** [axios.create(config)]. *)
Definition create (config : RequestConfig) : Instance :=
  {| defaults := config; request_interceptors := [] |}.

(** [instance.interceptors.request.use(fulfilled, rejected)]. *)
Definition use (i : Interceptor) (inst : Instance) : Instance :=
  {| defaults := defaults inst;
     request_interceptors := i :: request_interceptors inst |}.

Definition or_default {A} (x d : option A) : option A :=
  match x with
  | Some _ => x
  | None => d
  end.

(** A request's own settings win over the instance defaults; header bags
    are merged, the request's entries first. *)
Definition mergeConfig (d c : RequestConfig) : RequestConfig :=
  {| url := or_default (url c) (url d);
     method := or_default (method c) (method d);
     baseURL := or_default (baseURL c) (baseURL d);
     timeout := or_default (timeout c) (timeout d);
     headers := headers c ∪ headers d;
     params := or_default (params c) (params d);
     data := or_default (data c) (data d) |}.

(** The promise chain through the request interceptors, the one
    registered last running first. *)
Fixpoint run_interceptors (hooks : list Interceptor) (localStorage : Storage)
    (p : Promise RequestConfig) : Promise RequestConfig :=
  match hooks with
  | [] => p
  | i :: rest =>
      run_interceptors rest localStorage
        (then_ p (fulfilled i localStorage) (rejected i))
  end.

(** The request as the adapter receives it. *)
Definition outbound (inst : Instance) (localStorage : Storage)
    (config : RequestConfig) : Promise RequestConfig :=
  run_interceptors (request_interceptors inst) localStorage
    (Resolved (mergeConfig (defaults inst) config)).

Section Transport.
(** The exchange with the server: a response, or a failure of the
    transport. *)
Variable adapter : RequestConfig → Promise AxiosResponse.

(** [instance.request(config)]. *)
Definition request (inst : Instance) (localStorage : Storage)
    (config : RequestConfig) : Promise AxiosResponse :=
  then_ (outbound inst localStorage config) adapter Rejected.
End Transport.

End Axios.

Abbreviation AxiosInstance := Axios.Instance.

(** ** api.service.ts *)

Module ApiService.

Record ApiService : Type := {
  _client : AxiosInstance
}.

Definition _getAddress (endpoint : IEndpoint) : string :=
  let url := js_or (address endpoint) BASE_URL in
  let protocol := js_or (protocol endpoint) BASE_PROTOCOL in
  protocol +:+ "://" +:+ url +:+ "/" +:+ Object_toString endpoint +:+ "/".

(** [config.headers.Authorization = value]. *)
Definition set_Authorization (value : string)
    (config : Axios.RequestConfig) : Axios.RequestConfig :=
  {| Axios.url := Axios.url config;
     Axios.method := Axios.method config;
     Axios.baseURL := Axios.baseURL config;
     Axios.timeout := Axios.timeout config;
     Axios.headers := <["Authorization" := value]> (Axios.headers config);
     Axios.params := Axios.params config;
     Axios.data := Axios.data config |}.

(** The two handlers that [_setupInterceptors] registers. *)
Definition token_interceptor : Axios.Interceptor :=
  {| Axios.fulfilled := λ localStorage config,
       let token := getItem localStorage TOKEN_KEY_NAME in
       Resolved
         match token with
         | Some t =>
             if truthy t then set_Authorization ("Bearer " +:+ t) config
             else config
         | None => config
         end;
     Axios.rejected := λ error, Rejected error |}.

Definition _setupInterceptors (this : ApiService) : ApiService :=
  {| _client := Axios.use token_interceptor (_client this) |}.

Definition constructor (endpoint : IEndpoint) : ApiService :=
  _setupInterceptors
    {| _client := Axios.create
         {| Axios.url := None;
            Axios.method := None;
            Axios.baseURL := Some (_getAddress endpoint);
            Axios.timeout := Some (js_or (timeout endpoint) BASE_TIMEOUT);
            Axios.headers := {["Content-Type" := "application/json"]};
            Axios.params := None;
            Axios.data := None |} |}.

(** The object literal that [_sendRequest] hands to the transport:
    [{url: config.path || "", method: config.method}]. *)
Definition request_literal (config : IRequestConfig) : Axios.RequestConfig :=
  {| Axios.url := Some (js_or (path config) "");
     Axios.method := Some (MethodType_value (method config));
     Axios.baseURL := None;
     Axios.timeout := None;
     Axios.headers := ∅;
     Axios.params := None;
     Axios.data := None |}.

(** An argument that may be left out, as a value. *)
Definition optional (v : option JsValue) : JsValue := default JUndefined v.

Section Client.
Variable adapter : Axios.RequestConfig → Promise AxiosResponse.
Variable this : ApiService.
(** The storage as it is when the call is made. *)
Variable localStorage : Storage.

Definition _sendRequest (config : IRequestConfig) : Promise JsValue :=
  response ← Axios.request adapter (_client this) localStorage
               (request_literal config);
  if (status response =? 200)%Z && truthy (data response)
  then mret (data response)
  else mret empty_object.

Definition get (uuid : string) : Promise JsValue :=
  _sendRequest {| method := GET; path := Some uuid; params := None |}.

Definition create (data : JsValue) : Promise JsValue :=
  _sendRequest {| method := PUT; path := None; params := Some data |}.

Definition update (uuid : string) (data : JsValue) : Promise JsValue :=
  _sendRequest {| method := PATCH; path := Some uuid; params := Some data |}.

Definition call (method : MethodType) (path : option string)
    (data : option JsValue) : Promise JsValue :=
  _sendRequest {| method := method; path := path; params := data |}.

Definition delete (uuid : string) : Promise JsValue :=
  _sendRequest {| method := DELETE; path := Some uuid; params := None |}.

Definition list (filter navigation sorting : option JsValue) : Promise JsValue :=
  _sendRequest
    {| method := GET;
       path := None;
       params := Some (JObj [("filter", optional filter);
                             ("navigation", optional navigation);
                             ("sorting", optional sorting)]) |}.

End Client.

End ApiService.

Abbreviation ApiService := ApiService.ApiService.

(** ** Invocations of the public operations *)

(** One call of a public operation, with its arguments. *)
Inductive Invocation : Type :=
  | Get (uuid : string)
  | List (filter navigation sorting : option JsValue)
  | Create (data : JsValue)
  | Update (uuid : string) (data : JsValue)
  | Delete (uuid : string)
  | Call (method : MethodType) (path : option string) (data : option JsValue).

Definition invoke (adapter : Axios.RequestConfig → Promise AxiosResponse)
    (this : ApiService) (localStorage : Storage) (i : Invocation) : Promise JsValue :=
  match i with
  | Get uuid => ApiService.get adapter this localStorage uuid
  | List f n s => ApiService.list adapter this localStorage f n s
  | Create d => ApiService.create adapter this localStorage d
  | Update uuid d => ApiService.update adapter this localStorage uuid d
  | Delete uuid => ApiService.delete adapter this localStorage uuid
  | Call m p d => ApiService.call adapter this localStorage m p d
  end.

(** The request descriptor an invocation passes to [_sendRequest]. *)
Definition descriptor (i : Invocation) : IRequestConfig :=
  match i with
  | Get uuid => {| method := GET; path := Some uuid; params := None |}
  | List f n s =>
      {| method := GET;
         path := None;
         params := Some (JObj [("filter", ApiService.optional f);
                               ("navigation", ApiService.optional n);
                               ("sorting", ApiService.optional s)]) |}
  | Create d => {| method := PUT; path := None; params := Some d |}
  | Update uuid d => {| method := PATCH; path := Some uuid; params := Some d |}
  | Delete uuid => {| method := DELETE; path := Some uuid; params := None |}
  | Call m p d => {| method := m; path := p; params := d |}
  end.

(** The request that reaches the adapter when [this] performs [i]. *)
Definition wire (this : ApiService) (localStorage : Storage)
    (i : Invocation) : Promise Axios.RequestConfig :=
  Axios.outbound (ApiService._client this) localStorage
    (ApiService.request_literal (descriptor i)).

(** What the transport answers to [i]. *)
Definition answer (adapter : Axios.RequestConfig → Promise AxiosResponse)
    (this : ApiService) (localStorage : Storage) (i : Invocation) : Promise AxiosResponse :=
  then_ (wire this localStorage i) adapter Rejected.

(** The result contract of [_sendRequest], applied to a response. *)
Definition settle (response : AxiosResponse) : Promise JsValue :=
  if (status response =? 200)%Z && truthy (data response)
  then Resolved (data response)
  else Resolved empty_object.

(** Two invocations of one operation that agree on everything but the
    payload ([data], or the [filter]/[navigation]/[sorting] bundle). *)
Inductive same_but_payload : Invocation → Invocation → Prop :=
  | sbp_get uuid : same_but_payload (Get uuid) (Get uuid)
  | sbp_list f n s f' n' s' : same_but_payload (List f n s) (List f' n' s')
  | sbp_create d d' : same_but_payload (Create d) (Create d')
  | sbp_update uuid d d' : same_but_payload (Update uuid d) (Update uuid d')
  | sbp_delete uuid : same_but_payload (Delete uuid) (Delete uuid)
  | sbp_call m p d d' : same_but_payload (Call m p d) (Call m p d').

(** A descriptor that sets [entity] and nothing else. *)
Definition only_entity (name : string) : IEndpoint :=
  {| address := None; entity := name; protocol := None; timeout := None |}.

(** An adapter that answers every request with the same response. *)
Definition answering (response : AxiosResponse)
    : Axios.RequestConfig → Promise AxiosResponse :=
  λ _, Resolved response.

(** The client of the class's own usage example,
    [new ApiService({ entity: 'users' })]. *)
Definition userService : ApiService :=
  ApiService.constructor (only_entity "users").

(** A descriptor with every field supplied, the timeout being [0] (for
    the transport: no timeout at all). *)
Definition no_timeout_endpoint : IEndpoint :=
  {| address := Some "api.example.com";
     entity := "users";
     protocol := Some "http";
     timeout := Some (Num 0) |}.

(** A request hook that gives up: whatever the request, it rejects with
    [reason]. *)
Definition rejecting_hook (reason : JsValue) : Axios.Interceptor :=
  {| Axios.fulfilled := λ _ _, Rejected reason;
     Axios.rejected := λ error, Rejected error |}.

(** ** vite.config.ts: the dev-server proxy *)

Module ViteConfig.

(** [s] without its leading [prefix], when it starts with it. *)
Fixpoint strip_prefix (prefix s : string) : option string :=
  match prefix, s with
  | EmptyString, _ => Some s
  | String a prefix', String b s' =>
      if decide (a = b) then strip_prefix prefix' s' else None
  | String _ _, EmptyString => None
  end.

(** [s.replace(/^literal/, replacement)] for a pattern that is a literal
    text anchored at the start, and a replacement without [$]: a match at
    the start of [s] is replaced, once; without a match [s] is returned. *)
Definition replace_leading (literal replacement s : string) : string :=
  match strip_prefix literal s with
  | Some rest => replacement +:+ rest
  | None => s
  end.

(** The [rewrite] function of the [/api] proxy rule:
    [(path) => path.replace(/^\/api/, '/api/v1')]. *)
Definition rewrite (path : string) : string :=
  replace_leading "/api" "/api/v1" path.

End ViteConfig.

(** * Properties *)

(** ** How operations reach the transport *)

Section Plumbing.
Variable adapter : Axios.RequestConfig → Promise AxiosResponse.
Variable this : ApiService.
Variable localStorage : Storage.

Lemma invoke_sendRequest i :
  invoke adapter this localStorage i =
  ApiService._sendRequest adapter this localStorage (descriptor i).
Proof. by destruct i. Qed.

Lemma sendRequest_settle config :
  ApiService._sendRequest adapter this localStorage config =
  then_ (Axios.request adapter (ApiService._client this) localStorage
           (ApiService.request_literal config))
        settle Rejected.
Proof. reflexivity. Qed.

Lemma invoke_answer i :
  invoke adapter this localStorage i =
  then_ (answer adapter this localStorage i) settle Rejected.
Proof. by rewrite invoke_sendRequest, sendRequest_settle. Qed.

Lemma invoke_resolved i response :
  answer adapter this localStorage i = Resolved response →
  invoke adapter this localStorage i = settle response.
Proof. intros H. by rewrite invoke_answer, H. Qed.

Lemma invoke_rejected i reason :
  answer adapter this localStorage i = Rejected reason →
  invoke adapter this localStorage i = Rejected reason.
Proof. intros H. by rewrite invoke_answer, H. Qed.

End Plumbing.

(** The request literal is built from the path and the method alone. *)
Lemma request_literal_payload_free p m ps ps' :
  ApiService.request_literal {| path := p; method := m; params := ps |} =
  ApiService.request_literal {| path := p; method := m; params := ps' |}.
Proof. reflexivity. Qed.

(** A client built by the constructor sends the request literal merged
    into its defaults and passed once through the token hook. *)
Lemma constructor_outbound endpoint localStorage config :
  Axios.outbound (ApiService._client (ApiService.constructor endpoint))
    localStorage config =
  Axios.fulfilled ApiService.token_interceptor localStorage
    (Axios.mergeConfig
       (Axios.defaults (ApiService._client (ApiService.constructor endpoint)))
       config).
Proof. reflexivity. Qed.

(** The token hook always resolves, and touches nothing but the
    [Authorization] header. *)
Lemma token_hook_frame localStorage config :
  ∃ config',
    Axios.fulfilled ApiService.token_interceptor localStorage config
      = Resolved config' ∧
    Axios.url config' = Axios.url config ∧
    Axios.method config' = Axios.method config ∧
    Axios.baseURL config' = Axios.baseURL config ∧
    Axios.timeout config' = Axios.timeout config ∧
    Axios.params config' = Axios.params config ∧
    Axios.data config' = Axios.data config ∧
    (∀ name, name ≠ "Authorization" →
       Axios.headers config' !! name = Axios.headers config !! name).
Proof.
  unfold ApiService.token_interceptor; cbn [Axios.fulfilled].
  destruct (getItem localStorage TOKEN_KEY_NAME) as [t|];
    [destruct (truthy t)|]; eexists; (split; [reflexivity|]);
    do 6 (split; [reflexivity|]); intros name Hname; cbn; [|done..].
  by rewrite lookup_insert_ne.
Qed.

(** What a constructed client sends for an invocation: the path or the
    empty string, the run-time value of the method, the base address and
    timeout fixed at construction, and neither [params] nor [data]. *)
Lemma wire_constructor endpoint localStorage i :
  ∃ r,
    wire (ApiService.constructor endpoint) localStorage i = Resolved r ∧
    Axios.url r = Some (js_or (path (descriptor i)) "") ∧
    Axios.method r = Some (MethodType_value (method (descriptor i))) ∧
    Axios.baseURL r = Some (ApiService._getAddress endpoint) ∧
    Axios.timeout r = Some (js_or (timeout endpoint) BASE_TIMEOUT) ∧
    Axios.params r = None ∧
    Axios.data r = None.
Proof.
  unfold wire. rewrite constructor_outbound.
  destruct (token_hook_frame localStorage
    (Axios.mergeConfig
       (Axios.defaults (ApiService._client (ApiService.constructor endpoint)))
       (ApiService.request_literal (descriptor i))))
    as (r & Hr & Hurl & Hmeth & Hbase & Htime & Hparams & Hdata & _).
  exists r. rewrite Hr, Hurl, Hmeth, Hbase, Htime, Hparams, Hdata.
  by repeat split.
Qed.

(** [uuid || ""] is [uuid], empty or not. *)
Lemma js_or_empty (s : string) : js_or (Some s) "" = s.
Proof. by destruct s. Qed.

(** ** Construction *)

(** C1 (defect in the code). The claim asks for the base address
    [{protocol}://{host}/{entity}/]. [_getAddress] interpolates the
    descriptor itself where the entity belongs, so for every descriptor the
    last segment is the text [[object Object]] and the entity never
    appears: with only [entity: "users"] set, the address is
    [https://http://localhost:8000/[object Object]/], not the one ending in
    [/users/]. *)
Theorem getAddress_interpolates_descriptor :
  (∀ endpoint,
     Axios.baseURL
       (Axios.defaults (ApiService._client (ApiService.constructor endpoint)))
     = Some (ApiService._getAddress endpoint) ∧
     ApiService._getAddress endpoint =
       js_or (protocol endpoint) BASE_PROTOCOL +:+ "://" +:+
       js_or (address endpoint) BASE_URL +:+ "/[object Object]/") ∧
  ApiService._getAddress (only_entity "users")
    = "https://http://localhost:8000/[object Object]/" ∧
  ApiService._getAddress (only_entity "users")
    ≠ BASE_PROTOCOL +:+ "://" +:+ BASE_URL +:+ "/" +:+ "users" +:+ "/".
Proof.
  split; [|split].
  - intros endpoint. split; reflexivity.
  - reflexivity.
  - discriminate.
Qed.

(** ** What the operations put on the wire *)

(** An operation of a constructed client is its request, handed to the
    adapter, followed by the result contract. *)
Lemma invoke_constructor adapter endpoint localStorage i r :
  wire (ApiService.constructor endpoint) localStorage i = Resolved r →
  invoke adapter (ApiService.constructor endpoint) localStorage i =
  then_ (adapter r) settle Rejected.
Proof.
  intros Hr. rewrite invoke_answer. unfold answer. by rewrite Hr.
Qed.

(** C2 (defect in the code). The claim asks that [list(filter, nav, sort)]
    send a GET whose parameters are the bundle
    [{filter, navigation, sorting}]. [list] does build that bundle, but
    [_sendRequest] copies only the path and the method into the request:
    what reaches the adapter is a GET with neither [params] nor [data],
    whatever the three arguments are. *)
Theorem list_sends_no_bundle endpoint localStorage filter navigation sorting :
  params (descriptor (List filter navigation sorting)) =
    Some (JObj [("filter", ApiService.optional filter);
                ("navigation", ApiService.optional navigation);
                ("sorting", ApiService.optional sorting)]) ∧
  ∃ r,
    (∀ adapter,
       ApiService.list adapter (ApiService.constructor endpoint) localStorage
         filter navigation sorting
       = then_ (adapter r) settle Rejected) ∧
    Axios.method r = Some "GET" ∧
    Axios.url r = Some "" ∧
    Axios.params r = None ∧
    Axios.data r = None.
Proof.
  split; [reflexivity|].
  destruct (wire_constructor endpoint localStorage
              (List filter navigation sorting))
    as (r & Hr & Hurl & Hmeth & _ & _ & Hparams & Hdata).
  exists r. split; [|done].
  intros adapter.
  apply (invoke_constructor adapter endpoint localStorage
           (List filter navigation sorting) r Hr).
Qed.

(** C3 (defect in the code). The claim asks that [update(uuid, data)] send
    a request whose method is the string [PATCH], with [data] as its
    parameters. The enum member [MethodType.PATCH] has the run-time value
    [PARCH], so that is the method sent, to path [uuid]; and [data] is
    dropped by [_sendRequest] like every payload. *)
Theorem update_sends_PARCH endpoint localStorage uuid data :
  ∃ r,
    (∀ adapter,
       ApiService.update adapter (ApiService.constructor endpoint) localStorage
         uuid data
       = then_ (adapter r) settle Rejected) ∧
    Axios.method r = Some "PARCH" ∧
    Axios.method r ≠ Some "PATCH" ∧
    Axios.url r = Some uuid ∧
    Axios.params r = None ∧
    Axios.data r = None.
Proof.
  destruct (wire_constructor endpoint localStorage (Update uuid data))
    as (r & Hr & Hurl & Hmeth & _ & _ & Hparams & Hdata).
  change (Axios.url r = Some (js_or (Some uuid) "")) in Hurl.
  change (Axios.method r = Some "PARCH") in Hmeth.
  rewrite js_or_empty in Hurl.
  exists r. split; [|by rewrite Hmeth].
  intros adapter.
  apply (invoke_constructor adapter endpoint localStorage
           (Update uuid data) r Hr).
Qed.

(** C6 (defect in the code). The claim asks that [create(data)] send a PUT
    with [data] as its parameters and return a string. The PUT is sent,
    but without [data]: [_sendRequest] forwards neither [params] nor
    [data]. What comes back is the body of the response, of whatever
    shape, or the empty object. *)
Theorem create_sends_no_data endpoint localStorage data :
  params (descriptor (Create data)) = Some data ∧
  ∃ r,
    (∀ adapter,
       ApiService.create adapter (ApiService.constructor endpoint) localStorage
         data
       = then_ (adapter r) settle Rejected) ∧
    Axios.method r = Some "PUT" ∧
    Axios.url r = Some "" ∧
    Axios.params r = None ∧
    Axios.data r = None.
Proof.
  split; [reflexivity|].
  destruct (wire_constructor endpoint localStorage (Create data))
    as (r & Hr & Hurl & Hmeth & _ & _ & Hparams & Hdata).
  exists r. split; [|done].
  intros adapter.
  apply (invoke_constructor adapter endpoint localStorage (Create data) r Hr).
Qed.

(** C8. Two invocations of an operation that differ only in their
    params/data argument put the same request on the wire and so get the
    same answer and the same result: the request is built from the path
    (the empty string when absent) and the method alone, and carries
    neither [params] nor [data]. *)
Theorem payload_never_transmitted adapter this localStorage i i' :
  same_but_payload i i' →
  wire this localStorage i = wire this localStorage i' ∧
  invoke adapter this localStorage i = invoke adapter this localStorage i' ∧
  ApiService.request_literal (descriptor i) =
    {| Axios.url := Some (js_or (path (descriptor i)) "");
       Axios.method := Some (MethodType_value (method (descriptor i)));
       Axios.baseURL := None;
       Axios.timeout := None;
       Axios.headers := ∅;
       Axios.params := None;
       Axios.data := None |} ∧
  (∀ endpoint, ∃ r,
     wire (ApiService.constructor endpoint) localStorage i = Resolved r ∧
     Axios.params r = None ∧ Axios.data r = None).
Proof.
  intros Hsame.
  assert (Hwire : wire this localStorage i = wire this localStorage i')
    by (by destruct Hsame).
  split; [exact Hwire|]. split; [|split; [reflexivity|]].
  - rewrite !invoke_answer. unfold answer. by rewrite Hwire.
  - intros endpoint.
    destruct (wire_constructor endpoint localStorage i)
      as (r & Hr & _ & _ & _ & _ & Hparams & Hdata).
    by exists r.
Qed.

Lemma payload_never_transmitted_witness :
  same_but_payload (Create (JStr "a")) (Create (JObj [("name", JStr "John")])) ∧
  invoke (answering {| status := 200; data := JStr "id-1" |}) userService ∅
    (Create (JStr "a"))
  = invoke (answering {| status := 200; data := JStr "id-1" |}) userService ∅
      (Create (JObj [("name", JStr "John")])).
Proof.
  split; [constructor|].
  apply (payload_never_transmitted
           (answering {| status := 200; data := JStr "id-1" |}) userService ∅
           (Create (JStr "a")) (Create (JObj [("name", JStr "John")]))).
  constructor.
Defined.

(** ** The result contract *)

Lemma settle_truthy response :
  status response = 200 → truthy (data response) = true →
  settle response = Resolved (data response).
Proof. intros Hs Ht. unfold settle. by rewrite Hs, Ht. Qed.

Lemma settle_fallback response :
  status response ≠ 200 ∨ truthy (data response) = false →
  settle response = Resolved empty_object.
Proof.
  intros [Hs | Ht]; unfold settle.
  - by apply Z.eqb_neq in Hs as ->.
  - rewrite Ht. by rewrite andb_false_r.
Qed.

(** The only two ways [settle] ends. *)
Lemma settle_cases response v :
  settle response = Resolved v →
  (status response = 200 ∧ truthy (data response) = true ∧ v = data response)
  ∨ v = empty_object.
Proof.
  unfold settle.
  destruct (status response =? 200)%Z eqn:Hs;
    destruct (truthy (data response)) eqn:Ht; cbn; intros [= <-]; auto.
  left. by apply Z.eqb_eq in Hs.
Qed.

(** An empty body is falsy; the falsy bodies [false], [0] and [NaN] are
    not empty. *)
Lemma empty_body_falsy v : empty_body v = true → truthy v = false.
Proof. by destruct v as [| | | | [|] | |]. Qed.

Lemma truthy_not_empty v : truthy v = true → empty_body v = false.
Proof. by destruct v as [| | | | [|] | |]. Qed.

(** C4, as stated, at a concrete input: the transport answers [delete("123")]
    with status 200 and the body [false]. The body is not empty, and yet
    it is not what the operation returns. *)
Lemma nonempty_body_not_returned :
  ¬ (status {| status := 200; data := JBool false |} = 200 →
     empty_body (data {| status := 200; data := JBool false |}) = false →
     invoke (answering {| status := 200; data := JBool false |})
       userService ∅ (Delete "123")
     = Resolved (data {| status := 200; data := JBool false |})).
Proof.
  intros H. specialize (H eq_refl eq_refl).
  rewrite (invoke_resolved _ _ _ _ {| status := 200; data := JBool false |})
    in H by reflexivity.
  discriminate H.
Qed.

(** C4, amended. For every request issued by any operation to which the
    transport answers with a response: if the status is 200 and the body
    is truthy, the body is returned as it is; if the status is anything
    else, or the body is falsy (an empty body, but also [false], [0],
    [NaN] or [null]), the operation returns the empty object and does not
    fail. *)
Theorem result_contract adapter this localStorage i response :
  answer adapter this localStorage i = Resolved response →
  (status response = 200 → truthy (data response) = true →
     invoke adapter this localStorage i = Resolved (data response)) ∧
  (status response ≠ 200 ∨ truthy (data response) = false →
     invoke adapter this localStorage i = Resolved empty_object) ∧
  (empty_body (data response) = true →
     invoke adapter this localStorage i = Resolved empty_object).
Proof.
  intros Hanswer.
  rewrite (invoke_resolved _ _ _ _ _ Hanswer).
  split; [|split].
  - apply settle_truthy.
  - apply settle_fallback.
  - intros Hempty. apply settle_fallback. right. by apply empty_body_falsy.
Qed.

Lemma result_contract_witness :
  answer (answering {| status := 204; data := JStr "" |})
    userService ∅ (Get "123")
  = Resolved {| status := 204; data := JStr "" |} ∧
  invoke (answering {| status := 204; data := JStr "" |})
    userService ∅ (Get "123")
  = Resolved empty_object.
Proof.
  split; [reflexivity|].
  destruct (result_contract
              (answering {| status := 204; data := JStr "" |})
              userService ∅ (Get "123")
              {| status := 204; data := JStr "" |} eq_refl)
    as (_ & Hfallback & _).
  apply Hfallback. left. cbn. lia.
Defined.

(** C10. When the response has a status other than 200, or an empty
    body, [create] and [delete] resolve to the empty object. [create]
    resolves to a string, and [delete] to a boolean, only when the
    transport answered with status 200 and a non-empty body, and that
    body is then the result; [delete] never resolves to [false]. *)
Theorem create_delete_shapes adapter this localStorage data0 uuid :
  (∀ response,
     answer adapter this localStorage (Create data0) = Resolved response →
     status response ≠ 200 ∨ empty_body (data response) = true →
     ApiService.create adapter this localStorage data0 = Resolved empty_object) ∧
  (∀ response,
     answer adapter this localStorage (Delete uuid) = Resolved response →
     status response ≠ 200 ∨ empty_body (data response) = true →
     ApiService.delete adapter this localStorage uuid = Resolved empty_object) ∧
  (∀ s,
     ApiService.create adapter this localStorage data0 = Resolved (JStr s) →
     ∃ response,
       answer adapter this localStorage (Create data0) = Resolved response ∧
       status response = 200 ∧
       empty_body (data response) = false ∧
       data response = JStr s) ∧
  (∀ b,
     ApiService.delete adapter this localStorage uuid = Resolved (JBool b) →
     b = true ∧
     ∃ response,
       answer adapter this localStorage (Delete uuid) = Resolved response ∧
       status response = 200 ∧
       empty_body (data response) = false ∧
       data response = JBool true) ∧
  ApiService.delete adapter this localStorage uuid ≠ Resolved (JBool false).
Proof.
  change (ApiService.create adapter this localStorage data0)
    with (invoke adapter this localStorage (Create data0)).
  change (ApiService.delete adapter this localStorage uuid)
    with (invoke adapter this localStorage (Delete uuid)).
  assert (Hshape : ∀ i v,
            v ≠ empty_object →
            invoke adapter this localStorage i = Resolved v →
            ∃ response,
              answer adapter this localStorage i = Resolved response ∧
              status response = 200 ∧
              truthy (data response) = true ∧
              data response = v).
  { intros i v Hv. rewrite invoke_answer.
    destruct (answer adapter this localStorage i) as [response|reason];
      [|discriminate].
    cbn. intros H. apply settle_cases in H as [(Hs & Ht & ->) | ->]; [|done].
    by exists response. }
  assert (Hfall : ∀ i response,
            answer adapter this localStorage i = Resolved response →
            status response ≠ 200 ∨ empty_body (data response) = true →
            invoke adapter this localStorage i = Resolved empty_object).
  { intros i response Hanswer Hcase.
    rewrite (invoke_resolved _ _ _ _ _ Hanswer). apply settle_fallback.
    destruct Hcase as [Hs | He]; [by left | right; by apply empty_body_falsy]. }
  split; [apply Hfall|]. split; [apply Hfall|]. split; [|split].
  - intros s Hs. apply Hshape in Hs as (response & Ha & Hst & Ht & Hd); [|done].
    exists response. by auto using truthy_not_empty.
  - intros b Hb. apply Hshape in Hb as (response & Ha & Hst & Ht & Hd); [|done].
    rewrite Hd in Ht. cbn in Ht. subst b. split; [done|].
    exists response. rewrite Hd. by auto.
  - intros Hfalse.
    apply Hshape in Hfalse as (response & _ & _ & Ht & Hd); [|done].
    rewrite Hd in Ht. discriminate Ht.
Qed.

Lemma create_delete_shapes_witness :
  ApiService.create (answering {| status := 200; data := JStr "" |})
    userService ∅ (JObj [("name", JStr "John")])
  = Resolved empty_object ∧
  ApiService.delete (answering {| status := 202; data := JBool true |})
    userService ∅ "123"
  = Resolved empty_object.
Proof.
  split.
  - destruct (create_delete_shapes
                (answering {| status := 200; data := JStr "" |})
                userService ∅ (JObj [("name", JStr "John")]) "123")
      as (Hcreate & _).
    apply (Hcreate {| status := 200; data := JStr "" |}); [reflexivity|].
    right. reflexivity.
  - destruct (create_delete_shapes
                (answering {| status := 202; data := JBool true |})
                userService ∅ JNull "123")
      as (_ & Hdelete & _).
    apply (Hdelete {| status := 202; data := JBool true |}); [reflexivity|].
    left. cbn. lia.
Defined.

(** ** The token hook *)

(** The [Authorization] header of a request sent by a constructed
    client. *)
Lemma wire_authorization endpoint localStorage i :
  ∃ r,
    wire (ApiService.constructor endpoint) localStorage i = Resolved r ∧
    Axios.headers r !! "Authorization" =
      match getItem localStorage TOKEN_KEY_NAME with
      | Some t => if truthy t then Some ("Bearer " +:+ t) else None
      | None => None
      end.
Proof.
  unfold wire. rewrite constructor_outbound.
  unfold ApiService.token_interceptor; cbn [Axios.fulfilled].
  destruct (getItem localStorage TOKEN_KEY_NAME) as [t|];
    [destruct (truthy t)|]; eexists; (split; [reflexivity|]); cbn.
  - by rewrite lookup_insert_eq.
  - rewrite lookup_union_r by apply lookup_empty.
    by rewrite lookup_singleton_ne.
  - rewrite lookup_union_r by apply lookup_empty.
    by rewrite lookup_singleton_ne.
Qed.

(** C5, as stated, at a concrete input: the storage holds the empty
    string under the fixed key. A string is present, and the request of
    [get("123")] carries no [Authorization] header. *)
Lemma empty_token_sends_no_header :
  ¬ (getItem {[TOKEN_KEY_NAME := ""]} TOKEN_KEY_NAME = Some "" →
     ∃ r,
       wire userService {[TOKEN_KEY_NAME := ""]} (Get "123") = Resolved r ∧
       Axios.headers r !! "Authorization" = Some ("Bearer " +:+ "")).
Proof.
  intros H. destruct (H eq_refl) as (r & Hr & Hheader).
  destruct (wire_authorization (only_entity "users")
              {[TOKEN_KEY_NAME := ""]} (Get "123")) as (r' & Hr' & Hheader').
  unfold userService in Hr. rewrite Hr in Hr'. injection Hr' as <-.
  rewrite Hheader in Hheader'. discriminate Hheader'.
Qed.

(** C5, amended. For every outbound request of every operation of a
    constructed client: if a non-empty token string is in the storage
    under the fixed key when the request is made, the request carries
    [Authorization: Bearer <token>]; if nothing is stored under the key,
    or the stored string is empty, the request carries no [Authorization]
    header; either way the request goes to the transport. *)
Theorem bearer_token_attached endpoint localStorage i :
  ∃ r,
    wire (ApiService.constructor endpoint) localStorage i = Resolved r ∧
    (∀ adapter,
       invoke adapter (ApiService.constructor endpoint) localStorage i
       = then_ (adapter r) settle Rejected) ∧
    (∀ token,
       getItem localStorage TOKEN_KEY_NAME = Some token → token ≠ "" →
       Axios.headers r !! "Authorization" = Some ("Bearer " +:+ token)) ∧
    (getItem localStorage TOKEN_KEY_NAME = None
     ∨ getItem localStorage TOKEN_KEY_NAME = Some "" →
     Axios.headers r !! "Authorization" = None).
Proof.
  destruct (wire_authorization endpoint localStorage i) as (r & Hr & Hheader).
  exists r. split; [exact Hr|]. split; [|split].
  - intros adapter. by apply invoke_constructor.
  - intros token Htoken Hne. rewrite Hheader, Htoken.
    by destruct token.
  - intros [Hnone | Hempty]; rewrite Hheader.
    + by rewrite Hnone.
    + by rewrite Hempty.
Qed.

Lemma bearer_token_attached_witness :
  ∃ r,
    wire userService {[TOKEN_KEY_NAME := "abc"]} (Get "123") = Resolved r ∧
    Axios.headers r !! "Authorization" = Some "Bearer abc".
Proof.
  destruct (bearer_token_attached (only_entity "users")
              {[TOKEN_KEY_NAME := "abc"]} (Get "123"))
    as (r & Hr & _ & Hpresent & _).
  exists r. split; [exact Hr|].
  apply (Hpresent "abc"); [reflexivity | discriminate].
Defined.

(** ** Explicit and default configuration *)

(** [a || b] takes a truthy left operand, and the right operand
    otherwise. *)
Lemma js_or_truthy {A} `{Truthy A} (x b : A) :
  truthy x = true → js_or (Some x) b = x.
Proof. intros Hx. unfold js_or. by rewrite Hx. Qed.

Lemma js_or_falsy {A} `{Truthy A} (x b : A) :
  truthy x = false → js_or (Some x) b = b.
Proof. intros Hx. unfold js_or. by rewrite Hx. Qed.

(** C7, as stated, at a concrete input: a descriptor that supplies
    address, protocol and the timeout [0]. The timeout bound to the
    transport is not the one supplied. *)
Lemma zero_timeout_not_used :
  ¬ (Axios.timeout
       (Axios.defaults
          (ApiService._client (ApiService.constructor no_timeout_endpoint)))
     = timeout no_timeout_endpoint).
Proof. discriminate. Qed.

(** C7, amended. For every endpoint descriptor that supplies a non-empty
    address, a non-empty protocol and a timeout other than [0] and [NaN],
    the supplied values are the ones used: the base address bound to the
    transport starts with [{protocol}://{address}/], the transport's
    timeout is the supplied one, and every request of the client carries
    both. *)
Theorem explicit_values_override endpoint a p t :
  address endpoint = Some a → protocol endpoint = Some p →
  timeout endpoint = Some t →
  truthy a = true → truthy p = true → truthy t = true →
  (∃ rest,
     Axios.baseURL
       (Axios.defaults (ApiService._client (ApiService.constructor endpoint)))
     = Some (p +:+ "://" +:+ a +:+ "/" +:+ rest)) ∧
  Axios.timeout
    (Axios.defaults (ApiService._client (ApiService.constructor endpoint)))
  = Some t ∧
  (∀ localStorage i, ∃ r rest,
     wire (ApiService.constructor endpoint) localStorage i = Resolved r ∧
     Axios.baseURL r = Some (p +:+ "://" +:+ a +:+ "/" +:+ rest) ∧
     Axios.timeout r = Some t).
Proof.
  intros Ha Hp Ht Hta Htp Htt.
  assert (Haddress : ApiService._getAddress endpoint =
                     p +:+ "://" +:+ a +:+ "/" +:+ "[object Object]/").
  { unfold ApiService._getAddress. rewrite Ha, Hp.
    by rewrite !js_or_truthy. }
  assert (Htimeout : js_or (timeout endpoint) BASE_TIMEOUT = t).
  { rewrite Ht. by apply js_or_truthy. }
  split; [|split].
  - eexists. cbn. by rewrite Haddress.
  - cbn. by rewrite Htimeout.
  - intros localStorage i.
    destruct (wire_constructor endpoint localStorage i)
      as (r & Hr & _ & _ & Hbase & Htime & _).
    exists r. eexists. by rewrite Hbase, Htime, Haddress, Htimeout.
Qed.

Lemma explicit_values_override_witness :
  Axios.timeout
    (Axios.defaults
       (ApiService._client
          (ApiService.constructor
             {| address := Some "api.example.com";
                entity := "users";
                protocol := Some "http";
                timeout := Some (Num 3000) |})))
  = Some (Num 3000).
Proof.
  apply (explicit_values_override
           {| address := Some "api.example.com";
              entity := "users";
              protocol := Some "http";
              timeout := Some (Num 3000) |}
           "api.example.com" "http" (Num 3000)); reflexivity.
Defined.

(** C9. An empty-string address, an empty-string protocol and a timeout
    of [0], though supplied, are treated as absent: the client built from
    such a descriptor is the client built from the descriptor without
    that field, and the value in force is the default ([BASE_URL],
    [BASE_PROTOCOL], [BASE_TIMEOUT]). *)
Theorem falsy_values_fall_back name a p t :
  ApiService.constructor
    {| address := Some ""; entity := name; protocol := p; timeout := t |}
  = ApiService.constructor
      {| address := None; entity := name; protocol := p; timeout := t |} ∧
  ApiService.constructor
    {| address := a; entity := name; protocol := Some ""; timeout := t |}
  = ApiService.constructor
      {| address := a; entity := name; protocol := None; timeout := t |} ∧
  ApiService.constructor
    {| address := a; entity := name; protocol := p; timeout := Some (Num 0) |}
  = ApiService.constructor
      {| address := a; entity := name; protocol := p; timeout := None |} ∧
  (∃ rest,
     ApiService._getAddress
       {| address := Some ""; entity := name; protocol := p; timeout := t |}
     = js_or p BASE_PROTOCOL +:+ "://" +:+ BASE_URL +:+ "/" +:+ rest) ∧
  (∃ rest,
     ApiService._getAddress
       {| address := a; entity := name; protocol := Some ""; timeout := t |}
     = BASE_PROTOCOL +:+ "://" +:+ js_or a BASE_URL +:+ "/" +:+ rest) ∧
  Axios.timeout
    (Axios.defaults
       (ApiService._client
          (ApiService.constructor
             {| address := a; entity := name; protocol := p;
                timeout := Some (Num 0) |})))
  = Some BASE_TIMEOUT.
Proof.
  repeat split; try reflexivity.
  - by eexists.
  - by eexists.
Qed.

(** * Further properties of the client *)

(** ** The remaining operations *)

(** X1. [get(uuid)] of a constructed client sends one request: method
    [GET], path [uuid], no [params] and no [data]. When the transport
    answers it with status 200 and a truthy body, that body is the result,
    unchanged. *)
Theorem get_request endpoint localStorage uuid :
  ∃ r,
    wire (ApiService.constructor endpoint) localStorage (Get uuid)
      = Resolved r ∧
    Axios.method r = Some "GET" ∧
    Axios.url r = Some uuid ∧
    Axios.params r = None ∧
    Axios.data r = None ∧
    (∀ adapter,
       ApiService.get adapter (ApiService.constructor endpoint) localStorage uuid
       = then_ (adapter r) settle Rejected) ∧
    (∀ adapter body,
       adapter r = Resolved {| status := 200; data := body |} →
       truthy body = true →
       ApiService.get adapter (ApiService.constructor endpoint) localStorage uuid
       = Resolved body).
Proof.
  destruct (wire_constructor endpoint localStorage (Get uuid))
    as (r & Hr & Hurl & Hmeth & _ & _ & Hparams & Hdata).
  change (Axios.url r = Some (js_or (Some uuid) "")) in Hurl.
  rewrite js_or_empty in Hurl.
  assert (Hget : ∀ adapter,
            ApiService.get adapter (ApiService.constructor endpoint)
              localStorage uuid
            = then_ (adapter r) settle Rejected).
  { intros adapter.
    apply (invoke_constructor adapter endpoint localStorage (Get uuid) r Hr). }
  exists r. do 5 (split; [done|]). split; [exact Hget|].
  intros adapter body Hanswer Hbody. rewrite Hget, Hanswer. cbn.
  by apply (settle_truthy {| status := 200; data := body |}).
Qed.

Lemma get_request_witness :
  ApiService.get (answering {| status := 200; data := JObj [("id", JStr "123")] |})
    userService ∅ "123"
  = Resolved (JObj [("id", JStr "123")]).
Proof.
  destruct (get_request (only_entity "users") ∅ "123")
    as (r & _ & _ & _ & _ & _ & _ & Hbody).
  apply (Hbody (answering {| status := 200; data := JObj [("id", JStr "123")] |}));
    reflexivity.
Defined.

(** X2. [delete(uuid)] of a constructed client sends one request: method
    [DELETE], path [uuid], no [params] and no [data]. Its result is [true]
    exactly when the transport answers with status 200 and the body
    [true]. *)
Theorem delete_request endpoint localStorage uuid :
  ∃ r,
    wire (ApiService.constructor endpoint) localStorage (Delete uuid)
      = Resolved r ∧
    Axios.method r = Some "DELETE" ∧
    Axios.url r = Some uuid ∧
    Axios.params r = None ∧
    Axios.data r = None ∧
    (∀ adapter,
       ApiService.delete adapter (ApiService.constructor endpoint)
         localStorage uuid
       = Resolved (JBool true)
       ↔ ∃ response,
           adapter r = Resolved response ∧
           status response = 200 ∧ data response = JBool true).
Proof.
  destruct (wire_constructor endpoint localStorage (Delete uuid))
    as (r & Hr & Hurl & Hmeth & _ & _ & Hparams & Hdata).
  change (Axios.url r = Some (js_or (Some uuid) "")) in Hurl.
  rewrite js_or_empty in Hurl.
  exists r. do 5 (split; [done|]).
  intros adapter.
  change (ApiService.delete adapter (ApiService.constructor endpoint)
            localStorage uuid)
    with (invoke adapter (ApiService.constructor endpoint) localStorage
            (Delete uuid)).
  rewrite (invoke_constructor adapter endpoint localStorage (Delete uuid) r Hr).
  split.
  - destruct (adapter r) as [response|reason]; [|discriminate].
    cbn. intros H. exists response. split; [done|].
    apply settle_cases in H as [(Hs & _ & Hd) | H]; [done | discriminate H].
  - intros (response & -> & Hs & Hd). cbn.
    rewrite settle_truthy; by rewrite ?Hd.
Qed.

(** X3. [call(method, path, data)] of a constructed client sends the
    run-time value of [method] to [path], or to the empty path when [path]
    is left out; [data] is not sent. Leaving the path out and passing the
    empty string are the same call. *)
Theorem call_request endpoint localStorage m p d :
  (∃ r,
     wire (ApiService.constructor endpoint) localStorage (Call m p d)
       = Resolved r ∧
     Axios.method r = Some (MethodType_value m) ∧
     Axios.url r = Some (default "" p) ∧
     Axios.params r = None ∧
     Axios.data r = None ∧
     (∀ adapter,
        ApiService.call adapter (ApiService.constructor endpoint) localStorage
          m p d
        = then_ (adapter r) settle Rejected)) ∧
  (∀ adapter d',
     ApiService.call adapter (ApiService.constructor endpoint) localStorage
       m None d
     = ApiService.call adapter (ApiService.constructor endpoint) localStorage
         m (Some "") d').
Proof.
  split; [|reflexivity].
  destruct (wire_constructor endpoint localStorage (Call m p d))
    as (r & Hr & Hurl & Hmeth & _ & _ & Hparams & Hdata).
  change (Axios.url r = Some (js_or p "")) in Hurl.
  assert (Hpath : js_or p "" = default "" p)
    by (destruct p as [s|]; [apply js_or_empty | reflexivity]).
  rewrite Hpath in Hurl.
  exists r. do 5 (split; [done|]).
  intros adapter.
  apply (invoke_constructor adapter endpoint localStorage (Call m p d) r Hr).
Qed.

(** X4. For every client, storage and transport, [list(filter,
    navigation, sorting)] is the call [get("")]: the same request reaches
    the transport and the same result comes back, whatever the three
    arguments are. *)
Theorem list_is_get_of_empty_path adapter this localStorage
    filter navigation sorting :
  wire this localStorage (List filter navigation sorting)
    = wire this localStorage (Get "") ∧
  ApiService.list adapter this localStorage filter navigation sorting
    = ApiService.get adapter this localStorage "".
Proof. split; reflexivity. Qed.

Lemma delete_request_witness :
  ApiService.delete (answering {| status := 200; data := JBool true |})
    userService ∅ "123"
  = Resolved (JBool true).
Proof.
  destruct (delete_request (only_entity "users") ∅ "123")
    as (r & _ & _ & _ & _ & _ & Hiff).
  apply (Hiff (answering {| status := 200; data := JBool true |})).
  by exists {| status := 200; data := JBool true |}.
Defined.

(** ** Failure and results *)

(** X5. An operation of a constructed client fails exactly when the
    transport fails, and with the transport's own reason: nothing is
    swallowed, retried or wrapped, and a response of any status is never
    turned into a failure. *)
Theorem fails_iff_transport_fails adapter endpoint localStorage i reason :
  invoke adapter (ApiService.constructor endpoint) localStorage i
    = Rejected reason
  ↔ ∃ r,
      wire (ApiService.constructor endpoint) localStorage i = Resolved r ∧
      adapter r = Rejected reason.
Proof.
  destruct (wire_constructor endpoint localStorage i) as (r & Hr & _).
  rewrite (invoke_constructor adapter endpoint localStorage i r Hr).
  split.
  - destruct (adapter r) as [response|reason'] eqn:Hanswer; cbn.
    + unfold settle. by destruct (_ && _).
    + intros [= ->]. by exists r.
  - intros (r' & Hr' & Hanswer). rewrite Hr in Hr'. injection Hr' as <-.
    by rewrite Hanswer.
Qed.

Lemma fails_iff_transport_fails_witness :
  invoke (λ _, Rejected (JStr "Network Error")) userService ∅ (Get "123")
  = Rejected (JStr "Network Error").
Proof.
  apply (fails_iff_transport_fails (λ _, Rejected (JStr "Network Error"))
           (only_entity "users") ∅ (Get "123") (JStr "Network Error")).
  destruct (wire_constructor (only_entity "users") ∅ (Get "123"))
    as (r & Hr & _).
  by exists r.
Defined.

(** X6. No operation, of any client, ever resolves to a falsy value:
    a result is the truthy body of a response with status 200, or the
    empty object. [undefined], [null], [false], [0], [NaN] and the empty
    string are never results. *)
Theorem never_resolves_falsy adapter this localStorage i v :
  invoke adapter this localStorage i = Resolved v →
  truthy v = true ∧
  (v = empty_object
   ∨ ∃ response,
       answer adapter this localStorage i = Resolved response ∧
       status response = 200 ∧ data response = v).
Proof.
  rewrite invoke_answer.
  destruct (answer adapter this localStorage i) as [response|reason];
    [|discriminate].
  cbn. intros H. apply settle_cases in H as [(Hs & Ht & ->) | ->].
  - split; [done|]. right. by exists response.
  - split; [done|]. by left.
Qed.

Lemma never_resolves_falsy_witness :
  invoke (answering {| status := 200; data := JStr "id-1" |})
    userService ∅ (Create JNull)
  = Resolved (JStr "id-1") ∧
  truthy (JStr "id-1") = true.
Proof.
  split; [reflexivity|].
  apply (never_resolves_falsy
           (answering {| status := 200; data := JStr "id-1" |})
           userService ∅ (Create JNull) (JStr "id-1")).
  reflexivity.
Defined.

(** ** Headers and storage *)




(** X8. The storage matters to a request only through the entry under
    [edu_pilot_sid], read when the request is made: two storages with the
    same value (or none) under that key give the same request and the same
    result, whatever else they hold. *)
Theorem only_token_entry_matters adapter endpoint localStorage localStorage' i :
  getItem localStorage TOKEN_KEY_NAME = getItem localStorage' TOKEN_KEY_NAME →
  wire (ApiService.constructor endpoint) localStorage i
    = wire (ApiService.constructor endpoint) localStorage' i ∧
  invoke adapter (ApiService.constructor endpoint) localStorage i
    = invoke adapter (ApiService.constructor endpoint) localStorage' i.
Proof.
  intros Htoken.
  assert (Hwire : wire (ApiService.constructor endpoint) localStorage i
                  = wire (ApiService.constructor endpoint) localStorage' i).
  { unfold wire. rewrite !constructor_outbound.
    unfold ApiService.token_interceptor; cbn [Axios.fulfilled].
    by rewrite Htoken. }
  split; [exact Hwire|].
  rewrite !invoke_answer. unfold answer. by rewrite Hwire.
Qed.

Lemma only_token_entry_matters_witness :
  wire userService {[TOKEN_KEY_NAME := "abc"]} (Get "123")
  = wire userService {[TOKEN_KEY_NAME := "abc"; "theme" := "dark"]} (Get "123").
Proof.
  apply (only_token_entry_matters (answering {| status := 200; data := JNull |})
           (only_entity "users")
           {[TOKEN_KEY_NAME := "abc"]}
           {[TOKEN_KEY_NAME := "abc"; "theme" := "dark"]} (Get "123")).
  reflexivity.
Defined.

(** X9. The token hook, on any request configuration, resolves and
    removes no header. With a non-empty token in the storage the
    [Authorization] header becomes [Bearer <token>], replacing one that
    was there; without one, the configuration is returned as it came, an
    [Authorization] header already present included. *)
Theorem token_hook_on_any_config localStorage config :
  (∀ token,
     getItem localStorage TOKEN_KEY_NAME = Some token → token ≠ "" →
     Axios.fulfilled ApiService.token_interceptor localStorage config
     = Resolved
         (ApiService.set_Authorization ("Bearer " +:+ token) config)) ∧
  (getItem localStorage TOKEN_KEY_NAME = None
   ∨ getItem localStorage TOKEN_KEY_NAME = Some "" →
   Axios.fulfilled ApiService.token_interceptor localStorage config
   = Resolved config) ∧
  (∃ config',
     Axios.fulfilled ApiService.token_interceptor localStorage config
       = Resolved config' ∧
     ∀ name, is_Some (Axios.headers config !! name) →
             is_Some (Axios.headers config' !! name)).
Proof.
  unfold ApiService.token_interceptor; cbn [Axios.fulfilled].
  split; [|split].
  - intros token -> Hne. by destruct token.
  - by intros [-> | ->].
  - destruct (getItem localStorage TOKEN_KEY_NAME) as [t|];
      [destruct (truthy t)|]; eexists; (split; [reflexivity|]); try done.
    intros name Hname. cbn. rewrite lookup_insert.
    by case_decide.
Qed.

Lemma token_hook_on_any_config_witness :
  Axios.fulfilled ApiService.token_interceptor {[TOKEN_KEY_NAME := "abc"]}
    (ApiService.request_literal (descriptor (Get "123")))
  = Resolved
      (ApiService.set_Authorization "Bearer abc"
         (ApiService.request_literal (descriptor (Get "123")))).
Proof.
  apply (token_hook_on_any_config {[TOKEN_KEY_NAME := "abc"]}
           (ApiService.request_literal (descriptor (Get "123")))).
  - reflexivity.
  - discriminate.
Defined.

(** X10. The method of a request sent by a constructed client is one of
    the five strings [GET], [POST], [PUT], [PARCH] and [DELETE]: whatever
    the operation and its arguments, no request with the method [PATCH]
    is ever sent. *)
Theorem never_sends_PATCH endpoint localStorage i r :
  wire (ApiService.constructor endpoint) localStorage i = Resolved r →
  Axios.method r ≠ Some "PATCH" ∧
  (Axios.method r = Some "GET" ∨ Axios.method r = Some "POST"
   ∨ Axios.method r = Some "PUT" ∨ Axios.method r = Some "PARCH"
   ∨ Axios.method r = Some "DELETE").
Proof.
  intros Hr.
  destruct (wire_constructor endpoint localStorage i)
    as (r' & Hr' & _ & Hmeth & _).
  rewrite Hr in Hr'. injection Hr' as <-. rewrite Hmeth.
  destruct (method (descriptor i)); cbn; split; try discriminate; auto 6.
Qed.

Lemma never_sends_PATCH_witness :
  ∃ r,
    wire userService ∅ (Call PATCH (Some "123") None) = Resolved r ∧
    Axios.method r ≠ Some "PATCH".
Proof.
  destruct (wire_constructor (only_entity "users") ∅
              (Call PATCH (Some "123") None)) as (r & Hr & _).
  exists r. split; [exact Hr|].
  apply (never_sends_PATCH (only_entity "users") ∅
           (Call PATCH (Some "123") None) r Hr).
Defined.

(** ** Construction, continued *)

(** X11. The entity of a descriptor has no effect on the client: two
    descriptors with the same address, protocol and timeout build the same
    client, and so send the same requests, whatever their entities. *)
Theorem entity_has_no_effect a p t name name' :
  ApiService.constructor
    {| address := a; entity := name; protocol := p; timeout := t |}
  = ApiService.constructor
      {| address := a; entity := name'; protocol := p; timeout := t |} ∧
  (∀ localStorage i,
     wire (ApiService.constructor
             {| address := a; entity := name; protocol := p; timeout := t |})
       localStorage i
     = wire (ApiService.constructor
               {| address := a; entity := name'; protocol := p; timeout := t |})
         localStorage i).
Proof. split; reflexivity. Qed.



(** X13. The error path of the token hook re-raises: when a hook
    registered after it, and so run before it, rejects a request, the
    request fails with that reason unchanged and the transport is not
    reached. *)
Theorem hook_rejection_reraised adapter endpoint localStorage hook config reason :
  Axios.fulfilled hook localStorage
    (Axios.mergeConfig
       (Axios.defaults (ApiService._client (ApiService.constructor endpoint)))
       config)
  = Rejected reason →
  Axios.outbound
    (Axios.use hook (ApiService._client (ApiService.constructor endpoint)))
    localStorage config
  = Rejected reason ∧
  Axios.request adapter
    (Axios.use hook (ApiService._client (ApiService.constructor endpoint)))
    localStorage config
  = Rejected reason.
Proof.
  intros Hhook.
  assert (Hout : Axios.outbound
                   (Axios.use hook
                      (ApiService._client (ApiService.constructor endpoint)))
                   localStorage config
                 = Rejected reason).
  { unfold Axios.outbound. cbn. cbn in Hhook. by rewrite Hhook. }
  split; [exact Hout|].
  unfold Axios.request. by rewrite Hout.
Qed.

Lemma hook_rejection_reraised_witness :
  Axios.request (answering {| status := 200; data := JStr "never asked" |})
    (Axios.use (rejecting_hook (JStr "offline")) (ApiService._client userService))
    {[TOKEN_KEY_NAME := "abc"]}
    (ApiService.request_literal (descriptor (Get "123")))
  = Rejected (JStr "offline").
Proof.
  apply (hook_rejection_reraised
           (answering {| status := 200; data := JStr "never asked" |})
           (only_entity "users") {[TOKEN_KEY_NAME := "abc"]}
           (rejecting_hook (JStr "offline"))
           (ApiService.request_literal (descriptor (Get "123")))
           (JStr "offline")).
  reflexivity.
Defined.

(** ** The dev-server proxy *)

Lemma strip_prefix_app prefix rest :
  ViteConfig.strip_prefix prefix (prefix +:+ rest) = Some rest.
Proof.
  induction prefix as [|a prefix IH]; [done|].
  simpl. by rewrite decide_True.
Qed.

Lemma strip_prefix_Some prefix s rest :
  ViteConfig.strip_prefix prefix s = Some rest → s = prefix +:+ rest.
Proof.
  revert s. induction prefix as [|a prefix IH]; intros s; simpl.
  - by intros [= ->].
  - destruct s as [|b s]; [done|].
    case_decide as Hab; [|done].
    intros Hrest. subst b. by rewrite (IH s Hrest).
Qed.

(** A path that starts with [/api] or one that does not. *)
Lemma rewrite_cases path :
  (∃ rest, path = "/api" +:+ rest ∧
           ViteConfig.rewrite path = "/api/v1" +:+ rest)
  ∨ (ViteConfig.strip_prefix "/api" path = None ∧
     ViteConfig.rewrite path = path).
Proof.
  unfold ViteConfig.rewrite, ViteConfig.replace_leading.
  destruct (ViteConfig.strip_prefix "/api" path) as [rest|] eqn:Hstrip.
  - left. exists rest. split; [|done]. by apply strip_prefix_Some.
  - by right.
Qed.

(** [rewrite] on a path under [/api]. *)
Lemma rewrite_api rest :
  ViteConfig.rewrite ("/api" +:+ rest) = "/api/v1" +:+ rest.
Proof.
  unfold ViteConfig.rewrite, ViteConfig.replace_leading.
  by rewrite (strip_prefix_app "/api" rest).
Qed.

(** A rewritten path under [/api] is still under [/api]. *)
Lemma strip_prefix_rewritten rest :
  ViteConfig.strip_prefix "/api" ("/api/v1" +:+ rest) = Some ("/v1" +:+ rest).
Proof. apply (strip_prefix_app "/api" ("/v1" +:+ rest)). Qed.

(** X14. The proxy's [rewrite] turns a leading [/api] into [/api/v1] and
    keeps the rest of the path as it is, also when [/api] is not a whole
    segment; a path that does not start with [/api] is returned
    unchanged. *)
Theorem rewrite_leading_api :
  (∀ rest, ViteConfig.rewrite ("/api" +:+ rest) = "/api/v1" +:+ rest) ∧
  (∀ path, (∀ rest, path ≠ "/api" +:+ rest) → ViteConfig.rewrite path = path) ∧
  ViteConfig.rewrite "/api/users/123?page=1" = "/api/v1/users/123?page=1" ∧
  ViteConfig.rewrite "/apiary" = "/api/v1ary" ∧
  ViteConfig.rewrite "/v2/api" = "/v2/api".
Proof.
  split; [exact rewrite_api|]. split; [|done].
  intros path Hno.
  destruct (rewrite_cases path) as [(rest & Hpath & _) | [_ Hsame]];
    [|exact Hsame].
  by destruct (Hno rest).
Qed.

Lemma rewrite_leading_api_witness :
  ViteConfig.rewrite "/assets/logo.svg" = "/assets/logo.svg".
Proof.
  destruct rewrite_leading_api as (_ & Hother & _).
  apply Hother. intros rest. discriminate.
Defined.

(** X15. [rewrite] loses nothing and is not idempotent: different paths
    are rewritten to different paths, and rewriting a path under [/api] a
    second time inserts [/v1] again. *)
Theorem rewrite_injective_not_idempotent :
  (∀ path path',
     path ≠ path' → ViteConfig.rewrite path ≠ ViteConfig.rewrite path') ∧
  (∀ rest,
     ViteConfig.rewrite (ViteConfig.rewrite ("/api" +:+ rest))
     = "/api/v1/v1" +:+ rest) ∧
  (∀ rest,
     ViteConfig.rewrite (ViteConfig.rewrite ("/api" +:+ rest))
     ≠ ViteConfig.rewrite ("/api" +:+ rest)).
Proof.
  assert (Htwice : ∀ rest,
            ViteConfig.rewrite (ViteConfig.rewrite ("/api" +:+ rest))
            = "/api/v1/v1" +:+ rest).
  { intros rest. rewrite rewrite_api.
    apply (rewrite_api ("/v1" +:+ rest)). }
  split; [|split; [exact Htwice|]].
  - intros path path' Hne Heq. apply Hne.
    destruct (rewrite_cases path) as [(rest & -> & Hr) | [Hnone Hr]];
      destruct (rewrite_cases path') as [(rest' & -> & Hr') | [Hnone' Hr']];
      rewrite Hr, Hr' in Heq.
    + injection Heq as Heq. change (rest = rest') in Heq. by subst rest'.
    + subst path'. by rewrite strip_prefix_rewritten in Hnone'.
    + subst path. by rewrite strip_prefix_rewritten in Hnone.
    + exact Heq.
  - intros rest. rewrite Htwice, rewrite_api. intros Heq.
    injection Heq as Heq. change ("/v1" +:+ rest = rest) in Heq.
    assert (Hlen : String.length ("/v1" +:+ rest) = String.length rest)
      by by rewrite Heq.
    change (S (S (S (String.length rest))) = String.length rest) in Hlen. lia.
Qed.

Lemma rewrite_injective_not_idempotent_witness :
  "/api/v1/users" ≠ "/api/users" ∧
  ViteConfig.rewrite "/api/v1/users" ≠ ViteConfig.rewrite "/api/users".
Proof.
  split; [discriminate|].
  destruct rewrite_injective_not_idempotent as (Hinj & _).
  apply Hinj. discriminate.
Defined.
